(** * Request-validation middleware for Express, on top of Joi

    A shallow embedding of [src/lib/ValidatorBase.ts] (the exported
    functional middlewares), of the [RequestValidator] class and of
    [src/lib/errors/RequestValidationMiddlewareError.ts].

    The schema engine (Joi) and the HTTP framework (Express) are external:
    a schema is a record holding its [validate] function, a request is the
    record of the five views the middlewares read, and the continuation
    [next] is an effect recorded in the world. *)

From Stdlib Require Import ZArith.
From stdpp Require Import gmap strings list fin_maps.

Local Open Scope string_scope.

(** ** JavaScript values *)

(** The values found in a request view or in an options record. *)
#[local] Unset Elimination Schemes.
Inductive JsValue : Type :=
  | JUndefined
  | JNull
  | JBool (b : bool)
  | JNum (n : Z)
  | JStr (s : string)
  | JArr (items : list JsValue)
  | JObj (props : list (string * JsValue)).
#[local] Set Elimination Schemes.

(** Own-property test [k in v] on an object value. *)
Definition hasProp (k : string) (v : JsValue) : bool :=
  match v with
  | JObj props => existsb (String.eqb k) (map fst props)
  | _ => false
  end.

(** ** The external engine: Joi *)

Module Joi.

(** [Partial<Joi.ValidationOptions>]: an object whose present keys are
    the switches that were set.  Property order is irrelevant to Joi. *)
Abbreviation ValidationOptions := (gmap string JsValue).

Record ValidationErrorItem : Type := {
  message : string;
  path : list string;
  type : string
}.

(** [Joi.ValidationError]: an object, hence always truthy. *)
Record ValidationError : Type := {
  details : list ValidationErrorItem
}.

(** [Joi.ValidationResult]: [error] is undefined on success; [value] is
    the converted value. *)
Record ValidationResult : Type := {
  error : option ValidationError;
  value : JsValue
}.

(** [Joi.ObjectSchema], as the capability the middlewares use:
    [schema.validate(value, options)], options possibly undefined. *)
Record ObjectSchema : Type := {
  validate : JsValue -> option ValidationOptions -> ValidationResult
}.

End Joi.

(** ** The framework: Express *)

(** The five views of [express.Request] that the middlewares read. *)
Record Request : Type := {
  body : JsValue;
  cookies : JsValue;
  headers : JsValue;
  params : JsValue;
  query : JsValue
}.

(** ** interfaces/validatorInterfaces *)

Record IValidateAllSchema : Type := {
  schema_body : option Joi.ObjectSchema;
  schema_cookies : option Joi.ObjectSchema;
  schema_headers : option Joi.ObjectSchema;
  schema_params : option Joi.ObjectSchema;
  schema_query : option Joi.ObjectSchema
}.

(** An [IValidateAllResponse] object: its own properties in the order the
    object literal lists them.  [None] is the value [undefined]: a key
    holding [undefined] is still an own property of the object. *)
Definition IValidateAllResponse : Type :=
  list (string * option Joi.ValidationError).

(** Own keys of the object, [Object.keys(o)]. *)
Definition ownKeys (o : IValidateAllResponse) : list string := map fst o.

(** Property read [o.k]: [undefined] both for a missing key and for a key
    holding [undefined]. *)
Fixpoint getProp (k : string) (o : IValidateAllResponse)
  : option Joi.ValidationError :=
  match o with
  | [] => None
  | (k', v) :: rest => if String.eqb k k' then v else getProp k rest
  end.

(** Truthiness of a [Joi.ValidationError | undefined]: the error is an
    object, so only [undefined] is falsy. *)
Definition truthy (v : option Joi.ValidationError) : bool :=
  match v with
  | Some _ => true
  | None => false
  end.

(** ** errors/RequestValidationMiddlewareError.ts *)

Module errors.

(** The runtime value stored in the [errors] field.  The constructor's
    declared type [Record<string, unknown>[]] is bypassed by the casts at
    every call site, so the field holds whatever the caller built: a bare
    [Joi.ValidationError] or an object keyed by section name. *)
Inductive ErrorsPayload : Type :=
  | PValidationError (e : Joi.ValidationError)
  | PObject (o : IValidateAllResponse).

(** Modelled from the spec: the enum member [ErrorSource.VALIDATION] of
    [../enums/errorSource], the error category fixed to "validation". *)
Definition ErrorSource_VALIDATION : string := "validation".

(** Modelled from the spec: the enum member [HttpStatusCode.BAD_REQUEST]
    of [../enums/httpStatusCode], the HTTP status code fixed at 400. *)
Definition HttpStatusCode_BAD_REQUEST : Z := 400.

(** Modelled from the spec: the instance fields of [./base_error]'s
    [BaseError], a structured record of category, message, statusCode and
    errors.  A field not assigned yet is [None]. *)
Record BaseError : Type := {
  category : string;
  message : string;
  statusCode : option Z;
  errors : option ErrorsPayload
}.

(** Modelled from the spec: the constructor of [./base_error]'s
    [BaseError], which stores its two arguments as the category and the
    human-readable message. *)
Definition BaseError_new (source msg : string) : BaseError :=
  {| category := source; message := msg;
     statusCode := None; errors := None |}.

Definition set_statusCode (c : Z) (this : BaseError) : BaseError :=
  {| category := category this; message := message this;
     statusCode := Some c; errors := errors this |}.

Definition set_errors (p : ErrorsPayload) (this : BaseError) : BaseError :=
  {| category := category this; message := message this;
     statusCode := statusCode this; errors := Some p |}.

(** [new RequestValidationMiddlewareError(errors)]:
    [super(ErrorSource.VALIDATION, 'Bad Request')], then the two
    assignments. *)
Definition RequestValidationMiddlewareError (errs : ErrorsPayload)
  : BaseError :=
  let this := BaseError_new ErrorSource_VALIDATION "Bad Request" in
  let this := set_statusCode HttpStatusCode_BAD_REQUEST this in
  let this := set_errors errs this in
  this.

End errors.

(** ** Effects of one pipeline step *)

(** One call [schema.validate(value, options)]. *)
Record EngineCall : Type := {
  ec_schema : Joi.ObjectSchema;
  ec_value : JsValue;
  ec_options : option Joi.ValidationOptions
}.

(** What a pipeline step can observe and do: the request object it was
    handed, the calls it made to the engine, and the calls it made to the
    continuation ([None] for [next()], [Some e] for [next(e)]). *)
Record World : Type := {
  request : Request;
  engineCalls : list EngineCall;
  nextCalls : list (option errors.BaseError)
}.

Definition M (A : Type) : Type := World -> A * World.

Definition ret {A} (a : A) : M A := fun w => (a, w).

Definition bind {A B} (m : M A) (k : A -> M B) : M B :=
  fun w => let '(a, w') := m w in k a w'.

Notation "x <- m ;; k" := (bind m (fun x => k))
  (at level 100, m at next level, right associativity).

(** Reading a view of the request, [const { body } = req]. *)
Definition readReq (view : Request -> JsValue) : M JsValue :=
  fun w => (view (request w), w).

(** [schema.validate(value, options)]: the engine is called, the call is
    recorded, the outcome comes back. *)
Definition callValidate (schema : Joi.ObjectSchema) (v : JsValue)
    (o : option Joi.ValidationOptions) : M Joi.ValidationResult :=
  fun w =>
    (Joi.validate schema v o,
     {| request := request w;
        engineCalls := engineCalls w ++
          [{| ec_schema := schema; ec_value := v; ec_options := o |}];
        nextCalls := nextCalls w |}).

(** [next()] and [next(err)]. *)
Definition next (arg : option errors.BaseError) : M unit :=
  fun w =>
    (tt,
     {| request := request w;
        engineCalls := engineCalls w;
        nextCalls := nextCalls w ++ [arg] |}).

(** A pipeline step [(req, res, next) => void]. *)
Definition Middleware : Type := M unit.

(** The world a step leaves behind. *)
Definition run (m : Middleware) (w : World) : World := snd (m w).

(** The world in which the framework hands [req] to a step. *)
Definition incoming (req : Request) : World :=
  {| request := req; engineCalls := []; nextCalls := [] |}.

(** Object spread [{ ...base, ...override }]; spreading [undefined] adds
    nothing. *)
Definition spread (base : Joi.ValidationOptions)
    (override : option Joi.ValidationOptions) : Joi.ValidationOptions :=
  match override with
  | Some o => o ∪ base
  | None => base
  end.

(** [schema?.validate(value, options).error]: the whole chain is
    [undefined] when the schema is. *)
Definition optValidate (schema : option Joi.ObjectSchema)
    (view : Request -> JsValue) (o : option Joi.ValidationOptions)
    : M (option Joi.ValidationError) :=
  match schema with
  | None => ret None
  | Some s =>
      v <- readReq view ;;
      r <- callValidate s v o ;;
      ret (Joi.error r)
  end.

(** ** lib/ValidatorBase.ts: the exported middlewares *)

Module ValidatorBase.

Definition commonValidatorOptions : Joi.ValidationOptions :=
  {[ "abortEarly" := JBool false ]}.

Definition getBodyValidationErrors (validatorSchema : Joi.ObjectSchema)
    (body : JsValue) (joiValidationOptions : option Joi.ValidationOptions)
    : M (option Joi.ValidationError) :=
  r <- callValidate validatorSchema body joiValidationOptions ;;
  ret (Joi.error r).

Definition validateBody (validatorSchema : Joi.ObjectSchema)
    (joiValidationOptions : option Joi.ValidationOptions) : Middleware :=
  body <- readReq body ;;
  validationErrors <- getBodyValidationErrors validatorSchema body
    (Some (spread commonValidatorOptions joiValidationOptions)) ;;
  let err : IValidateAllResponse := [("body", validationErrors)] in
  match validationErrors with
  | Some _ =>
      next (Some (errors.RequestValidationMiddlewareError
                    (errors.PObject err)))
  | None => next None
  end.

Definition getCookiesValidationErrors (validatorSchema : Joi.ObjectSchema)
    (cookies : JsValue) (joiValidationOptions : option Joi.ValidationOptions)
    : M (option Joi.ValidationError) :=
  r <- callValidate validatorSchema cookies joiValidationOptions ;;
  ret (Joi.error r).

Definition validateCookies (validatorSchema : Joi.ObjectSchema)
    (joiValidationOptions : option Joi.ValidationOptions) : Middleware :=
  cookies <- readReq cookies ;;
  validationErrors <- getCookiesValidationErrors validatorSchema cookies
    (Some (spread commonValidatorOptions joiValidationOptions)) ;;
  let err : IValidateAllResponse := [("cookies", validationErrors)] in
  match validationErrors with
  | Some _ =>
      next (Some (errors.RequestValidationMiddlewareError
                    (errors.PObject err)))
  | None => next None
  end.

Definition getHeadersValidationErrors (validatorSchema : Joi.ObjectSchema)
    (headers : JsValue) (joiValidationOptions : option Joi.ValidationOptions)
    : M (option Joi.ValidationError) :=
  r <- callValidate validatorSchema headers joiValidationOptions ;;
  ret (Joi.error r).

Definition validateHeaders (validatorSchema : Joi.ObjectSchema)
    (joiValidationOptions : option Joi.ValidationOptions) : Middleware :=
  headers <- readReq headers ;;
  validationErrors <- getHeadersValidationErrors validatorSchema headers
    (Some (spread commonValidatorOptions joiValidationOptions)) ;;
  let err : IValidateAllResponse := [("headers", validationErrors)] in
  match validationErrors with
  | Some _ =>
      next (Some (errors.RequestValidationMiddlewareError
                    (errors.PObject err)))
  | None => next None
  end.

Definition getParamsValidationErrors (validatorSchema : Joi.ObjectSchema)
    (params : JsValue) (joiValidationOptions : option Joi.ValidationOptions)
    : M (option Joi.ValidationError) :=
  r <- callValidate validatorSchema params joiValidationOptions ;;
  ret (Joi.error r).

Definition validateParams (validatorSchema : Joi.ObjectSchema)
    (joiValidationOptions : option Joi.ValidationOptions) : Middleware :=
  params <- readReq params ;;
  validationErrors <- getParamsValidationErrors validatorSchema params
    (Some (spread commonValidatorOptions joiValidationOptions)) ;;
  let err : IValidateAllResponse := [("params", validationErrors)] in
  match validationErrors with
  | Some _ =>
      next (Some (errors.RequestValidationMiddlewareError
                    (errors.PObject err)))
  | None => next None
  end.

Definition getQueryValidationErrors (validatorSchema : Joi.ObjectSchema)
    (query : JsValue) (joiValidationOptions : option Joi.ValidationOptions)
    : M (option Joi.ValidationError) :=
  r <- callValidate validatorSchema query joiValidationOptions ;;
  ret (Joi.error r).

Definition validateQuery (validatorSchema : Joi.ObjectSchema)
    (joiValidationOptions : option Joi.ValidationOptions) : Middleware :=
  query <- readReq query ;;
  validationErrors <- getQueryValidationErrors validatorSchema query
    (Some (spread commonValidatorOptions joiValidationOptions)) ;;
  let err : IValidateAllResponse := [("query", validationErrors)] in
  match validationErrors with
  | Some _ =>
      next (Some (errors.RequestValidationMiddlewareError
                    (errors.PObject err)))
  | None => next None
  end.

Definition getAllValidationErrors (validatorSchema : IValidateAllSchema)
    (joiValidationOptions : option Joi.ValidationOptions)
    : M (option IValidateAllResponse) :=
  e_body <- optValidate (schema_body validatorSchema) body
              joiValidationOptions ;;
  e_cookies <- optValidate (schema_cookies validatorSchema) cookies
              joiValidationOptions ;;
  e_headers <- optValidate (schema_headers validatorSchema) headers
              joiValidationOptions ;;
  e_params <- optValidate (schema_params validatorSchema) params
              joiValidationOptions ;;
  e_query <- optValidate (schema_query validatorSchema) query
              joiValidationOptions ;;
  let validateAllResponse : IValidateAllResponse :=
    [("body", e_body); ("cookies", e_cookies); ("headers", e_headers);
     ("params", e_params); ("query", e_query)] in
  if truthy (getProp "body" validateAllResponse)
     || truthy (getProp "cookies" validateAllResponse)
     || truthy (getProp "headers" validateAllResponse)
     || truthy (getProp "params" validateAllResponse)
     || truthy (getProp "query" validateAllResponse)
  then ret (Some validateAllResponse)
  else ret None.

(** The options are handed to [getAllValidationErrors] as received:
    unlike the five section validators, no spread over
    [commonValidatorOptions] happens here. *)
Definition validateAll (validatorSchema : IValidateAllSchema)
    (joiValidationOptions : option Joi.ValidationOptions) : Middleware :=
  validateAllResponse <- getAllValidationErrors validatorSchema
                           joiValidationOptions ;;
  match validateAllResponse with
  | Some r =>
      next (Some (errors.RequestValidationMiddlewareError
                    (errors.PObject r)))
  | None => next None
  end.

End ValidatorBase.

(** ** The earlier revision of lib/ValidatorBase.ts

    The second text held by [src/lib/ValidatorBase.ts]: the middlewares
    before they accepted options, every engine call made with
    [commonValidatorOptions]. *)

Module ValidatorBaseFixedOptions.

Definition commonValidatorOptions : Joi.ValidationOptions :=
  {[ "abortEarly" := JBool false ]}.

Definition getBodyValidationErrors (validatorSchema : Joi.ObjectSchema)
    (body : JsValue) : M (option Joi.ValidationError) :=
  r <- callValidate validatorSchema body (Some commonValidatorOptions) ;;
  ret (Joi.error r).

Definition validateBody (validatorSchema : Joi.ObjectSchema) : Middleware :=
  body <- readReq body ;;
  validationErrors <- getBodyValidationErrors validatorSchema body ;;
  let err : IValidateAllResponse := [("body", validationErrors)] in
  match validationErrors with
  | Some _ =>
      next (Some (errors.RequestValidationMiddlewareError
                    (errors.PObject err)))
  | None => next None
  end.

Definition getCookiesValidationErrors (validatorSchema : Joi.ObjectSchema)
    (cookies : JsValue) : M (option Joi.ValidationError) :=
  r <- callValidate validatorSchema cookies (Some commonValidatorOptions) ;;
  ret (Joi.error r).

Definition validateCookies (validatorSchema : Joi.ObjectSchema) : Middleware :=
  cookies <- readReq cookies ;;
  validationErrors <- getCookiesValidationErrors validatorSchema cookies ;;
  let err : IValidateAllResponse := [("cookies", validationErrors)] in
  match validationErrors with
  | Some _ =>
      next (Some (errors.RequestValidationMiddlewareError
                    (errors.PObject err)))
  | None => next None
  end.

Definition getHeadersValidationErrors (validatorSchema : Joi.ObjectSchema)
    (headers : JsValue) : M (option Joi.ValidationError) :=
  r <- callValidate validatorSchema headers (Some commonValidatorOptions) ;;
  ret (Joi.error r).

Definition validateHeaders (validatorSchema : Joi.ObjectSchema) : Middleware :=
  headers <- readReq headers ;;
  validationErrors <- getHeadersValidationErrors validatorSchema headers ;;
  let err : IValidateAllResponse := [("headers", validationErrors)] in
  match validationErrors with
  | Some _ =>
      next (Some (errors.RequestValidationMiddlewareError
                    (errors.PObject err)))
  | None => next None
  end.

Definition getParamsValidationErrors (validatorSchema : Joi.ObjectSchema)
    (params : JsValue) : M (option Joi.ValidationError) :=
  r <- callValidate validatorSchema params (Some commonValidatorOptions) ;;
  ret (Joi.error r).

Definition validateParams (validatorSchema : Joi.ObjectSchema) : Middleware :=
  params <- readReq params ;;
  validationErrors <- getParamsValidationErrors validatorSchema params ;;
  let err : IValidateAllResponse := [("params", validationErrors)] in
  match validationErrors with
  | Some _ =>
      next (Some (errors.RequestValidationMiddlewareError
                    (errors.PObject err)))
  | None => next None
  end.

Definition getQueryValidationErrors (validatorSchema : Joi.ObjectSchema)
    (query : JsValue) : M (option Joi.ValidationError) :=
  r <- callValidate validatorSchema query (Some commonValidatorOptions) ;;
  ret (Joi.error r).

Definition validateQuery (validatorSchema : Joi.ObjectSchema) : Middleware :=
  query <- readReq query ;;
  validationErrors <- getQueryValidationErrors validatorSchema query ;;
  let err : IValidateAllResponse := [("query", validationErrors)] in
  match validationErrors with
  | Some _ =>
      next (Some (errors.RequestValidationMiddlewareError
                    (errors.PObject err)))
  | None => next None
  end.

Definition getAllValidationErrors (validatorSchema : IValidateAllSchema)
    : M (option IValidateAllResponse) :=
  e_body <- optValidate (schema_body validatorSchema) body
              (Some commonValidatorOptions) ;;
  e_cookies <- optValidate (schema_cookies validatorSchema) cookies
              (Some commonValidatorOptions) ;;
  e_headers <- optValidate (schema_headers validatorSchema) headers
              (Some commonValidatorOptions) ;;
  e_params <- optValidate (schema_params validatorSchema) params
              (Some commonValidatorOptions) ;;
  e_query <- optValidate (schema_query validatorSchema) query
              (Some commonValidatorOptions) ;;
  let validateAllResponse : IValidateAllResponse :=
    [("body", e_body); ("cookies", e_cookies); ("headers", e_headers);
     ("params", e_params); ("query", e_query)] in
  if truthy (getProp "body" validateAllResponse)
     || truthy (getProp "cookies" validateAllResponse)
     || truthy (getProp "headers" validateAllResponse)
     || truthy (getProp "params" validateAllResponse)
     || truthy (getProp "query" validateAllResponse)
  then ret (Some validateAllResponse)
  else ret None.

Definition validateAll (validatorSchema : IValidateAllSchema)
    : Middleware :=
  validateAllResponse <- getAllValidationErrors validatorSchema ;;
  match validateAllResponse with
  | Some r =>
      next (Some (errors.RequestValidationMiddlewareError
                    (errors.PObject r)))
  | None => next None
  end.

End ValidatorBaseFixedOptions.

(** ** The class RequestValidator *)

Module RequestValidator.

Record t : Type := {
  defaultValidationOptions : Joi.ValidationOptions;
  commonValidationOptions : Joi.ValidationOptions
}.

(** [new RequestValidator(joiValidationOptions?)]. *)
Definition constructor (joiValidationOptions : option Joi.ValidationOptions)
  : t :=
  let defaultValidationOptions : Joi.ValidationOptions :=
    {[ "abortEarly" := JBool false ]} in
  {| defaultValidationOptions := defaultValidationOptions;
     commonValidationOptions :=
       match joiValidationOptions with
       | Some o => spread defaultValidationOptions (Some o)
       | None => defaultValidationOptions
       end |}.

Definition getBodyValidationErrors (this : t)
    (validatorSchema : Joi.ObjectSchema) (body : JsValue)
    (bodyValidationOptions : option Joi.ValidationOptions)
    : M (option Joi.ValidationError) :=
  r <- callValidate validatorSchema body bodyValidationOptions ;;
  ret (Joi.error r).

Definition validateBody (this : t) (validatorSchema : Joi.ObjectSchema)
    (bodyValidationOptions : option Joi.ValidationOptions) : Middleware :=
  body <- readReq body ;;
  validationErrors <- getBodyValidationErrors this validatorSchema body
    (Some (spread (commonValidationOptions this)
                  bodyValidationOptions)) ;;
  let err : IValidateAllResponse := [("body", validationErrors)] in
  match validationErrors with
  | Some _ =>
      next (Some (errors.RequestValidationMiddlewareError
                    (errors.PObject err)))
  | None => next None
  end.

Definition getCookiesValidationErrors (this : t)
    (validatorSchema : Joi.ObjectSchema) (cookies : JsValue)
    (cookiesValidationOptions : option Joi.ValidationOptions)
    : M (option Joi.ValidationError) :=
  r <- callValidate validatorSchema cookies cookiesValidationOptions ;;
  ret (Joi.error r).

Definition validateCookies (this : t) (validatorSchema : Joi.ObjectSchema)
    (cookiesValidationOptions : option Joi.ValidationOptions) : Middleware :=
  cookies <- readReq cookies ;;
  validationErrors <- getCookiesValidationErrors this validatorSchema cookies
    (Some (spread (commonValidationOptions this)
                  cookiesValidationOptions)) ;;
  let err : IValidateAllResponse := [("cookies", validationErrors)] in
  match validationErrors with
  | Some _ =>
      next (Some (errors.RequestValidationMiddlewareError
                    (errors.PObject err)))
  | None => next None
  end.

Definition getQueryValidationErrors (this : t)
    (validatorSchema : Joi.ObjectSchema) (query : JsValue)
    (queryValidationOptions : option Joi.ValidationOptions)
    : M (option Joi.ValidationError) :=
  r <- callValidate validatorSchema query queryValidationOptions ;;
  ret (Joi.error r).

Definition validateQuery (this : t) (validatorSchema : Joi.ObjectSchema)
    (queryValidationOptions : option Joi.ValidationOptions) : Middleware :=
  query <- readReq query ;;
  validationErrors <- getQueryValidationErrors this validatorSchema query
    (Some (spread (commonValidationOptions this)
                  queryValidationOptions)) ;;
  let err : IValidateAllResponse := [("query", validationErrors)] in
  match validationErrors with
  | Some _ =>
      next (Some (errors.RequestValidationMiddlewareError
                    (errors.PObject err)))
  | None => next None
  end.

Definition getParamsValidationErrors (this : t)
    (validatorSchema : Joi.ObjectSchema) (params : JsValue)
    (paramsValidationOptions : option Joi.ValidationOptions)
    : M (option Joi.ValidationError) :=
  r <- callValidate validatorSchema params paramsValidationOptions ;;
  ret (Joi.error r).

Definition validateParams (this : t) (validatorSchema : Joi.ObjectSchema)
    (paramsValidationOptions : option Joi.ValidationOptions) : Middleware :=
  params <- readReq params ;;
  validationErrors <- getParamsValidationErrors this validatorSchema params
    (Some (spread (commonValidationOptions this)
                  paramsValidationOptions)) ;;
  let err : IValidateAllResponse := [("params", validationErrors)] in
  match validationErrors with
  | Some _ =>
      next (Some (errors.RequestValidationMiddlewareError
                    (errors.PObject err)))
  | None => next None
  end.

Definition getHeadersValidationErrors (this : t)
    (validatorSchema : Joi.ObjectSchema) (headers : JsValue)
    (headersValidationOptions : option Joi.ValidationOptions)
    : M (option Joi.ValidationError) :=
  r <- callValidate validatorSchema headers headersValidationOptions ;;
  ret (Joi.error r).

Definition validateHeaders (this : t) (validatorSchema : Joi.ObjectSchema)
    (headersValidationOptions : option Joi.ValidationOptions) : Middleware :=
  headers <- readReq headers ;;
  validationErrors <- getHeadersValidationErrors this validatorSchema headers
    (Some (spread (commonValidationOptions this)
                  headersValidationOptions)) ;;
  let err : IValidateAllResponse := [("headers", validationErrors)] in
  match validationErrors with
  | Some _ =>
      next (Some (errors.RequestValidationMiddlewareError
                    (errors.PObject err)))
  | None => next None
  end.

Definition getAllValidationErrors (this : t)
    (validatorSchema : IValidateAllSchema)
    (allValidationOptions : option Joi.ValidationOptions)
    : M (option IValidateAllResponse) :=
  e_body <- optValidate (schema_body validatorSchema) body
              allValidationOptions ;;
  e_cookies <- optValidate (schema_cookies validatorSchema) cookies
              allValidationOptions ;;
  e_headers <- optValidate (schema_headers validatorSchema) headers
              allValidationOptions ;;
  e_params <- optValidate (schema_params validatorSchema) params
              allValidationOptions ;;
  e_query <- optValidate (schema_query validatorSchema) query
              allValidationOptions ;;
  let validateAllResponse : IValidateAllResponse :=
    [("body", e_body); ("cookies", e_cookies); ("headers", e_headers);
     ("params", e_params); ("query", e_query)] in
  if truthy (getProp "body" validateAllResponse)
     || truthy (getProp "cookies" validateAllResponse)
     || truthy (getProp "headers" validateAllResponse)
     || truthy (getProp "params" validateAllResponse)
     || truthy (getProp "query" validateAllResponse)
  then ret (Some validateAllResponse)
  else ret None.

(** Here the spread over [commonValidationOptions] is made before the
    options reach [getAllValidationErrors]. *)
Definition validateAll (this : t) (validatorSchema : IValidateAllSchema)
    (allValidationOptions : option Joi.ValidationOptions) : Middleware :=
  validateAllResponse <- getAllValidationErrors this validatorSchema
    (Some (spread (commonValidationOptions this)
                  allValidationOptions)) ;;
  match validateAllResponse with
  | Some r =>
      next (Some (errors.RequestValidationMiddlewareError
                    (errors.PObject r)))
  | None => next None
  end.

End RequestValidator.

(** ** A sample schema *)

Module Sample.

(** The switch [abortEarly] as Joi reads it: it stops at the first
    violation unless the options set it to [false] (Joi's documented
    default is [true], also when no options are given). *)
Definition abortEarly (o : option Joi.ValidationOptions) : bool :=
  match o with
  | Some opts =>
      match opts !! "abortEarly" with
      | Some (JBool false) => false
      | _ => true
      end
  | None => true
  end.

Definition required (k : string) : Joi.ValidationErrorItem :=
  {| Joi.message := k ++ " is required";
     Joi.path := [k];
     Joi.type := "any.required" |}.

(** A schema in the manner of [Joi.object({ k: Joi.any().required() })]
    for each listed key: one violation per missing key, in the order of
    the keys, cut to the first one when [abortEarly] is on. *)
Definition requiredKeys (keys : list string) : Joi.ObjectSchema :=
  {| Joi.validate := fun v o =>
       let missing := List.filter (fun k => negb (hasProp k v)) keys in
       let found := map required missing in
       let reported := if abortEarly o then take 1 found else found in
       {| Joi.error :=
            match reported with
            | [] => None
            | _ => Some {| Joi.details := reported |}
            end;
          Joi.value := v |} |}.

(** A schema that accepts everything and converts the value. *)
Definition converting (converted : JsValue) : Joi.ObjectSchema :=
  {| Joi.validate := fun _ _ =>
       {| Joi.error := None; Joi.value := converted |} |}.

(** [Joi.object({ name: Joi.any().required(),
    email: Joi.any().required() })]. *)
Definition twoRequired : Joi.ObjectSchema :=
  requiredKeys ["name"; "email"].

Definition emptyObject : JsValue := JObj [].

Definition emptyRequest : Request :=
  {| body := emptyObject; cookies := emptyObject; headers := emptyObject;
     params := emptyObject; query := emptyObject |}.

Definition noSchemas : IValidateAllSchema :=
  {| schema_body := None; schema_cookies := None; schema_headers := None;
     schema_params := None; schema_query := None |}.

Definition bodyOnly (s : Joi.ObjectSchema) : IValidateAllSchema :=
  {| schema_body := Some s; schema_cookies := None; schema_headers := None;
     schema_params := None; schema_query := None |}.

(** The schema set [{ body: twoRequired }]. *)
Definition twoRequiredBody : IValidateAllSchema := bodyOnly twoRequired.

End Sample.

(** ** Vocabulary of the statements *)

Inductive SectionName : Type := Body | Cookies | Headers | Params | Query.

#[global] Instance SectionName_eq_dec : EqDecision SectionName.
Proof. solve_decision. Defined.

Definition allSections : list SectionName :=
  [Body; Cookies; Headers; Params; Query].

Definition sectionKey (sec : SectionName) : string :=
  match sec with
  | Body => "body"
  | Cookies => "cookies"
  | Headers => "headers"
  | Params => "params"
  | Query => "query"
  end.

Definition sectionView (sec : SectionName) : Request -> JsValue :=
  match sec with
  | Body => body
  | Cookies => cookies
  | Headers => headers
  | Params => params
  | Query => query
  end.

Definition schemaOf (schemas : IValidateAllSchema) (sec : SectionName)
  : option Joi.ObjectSchema :=
  match sec with
  | Body => schema_body schemas
  | Cookies => schema_cookies schemas
  | Headers => schema_headers schemas
  | Params => schema_params schemas
  | Query => schema_query schemas
  end.

(** What route-registration code can build: one of the five section
    validators, or the aggregate validator. *)
Inductive Validator : Type :=
  | SectionValidator (sec : SectionName) (schema : Joi.ObjectSchema)
      (override : option Joi.ValidationOptions)
  | AggregateValidator (schemas : IValidateAllSchema)
      (override : option Joi.ValidationOptions).

(** The schema a validator holds for a section, if any. *)
Definition inScope (v : Validator) (sec : SectionName)
  : option Joi.ObjectSchema :=
  match v with
  | SectionValidator sec' schema _ =>
      if decide (sec = sec') then Some schema else None
  | AggregateValidator schemas _ => schemaOf schemas sec
  end.

(** The pipeline step exported by [lib/ValidatorBase.ts] for a validator. *)
Definition exported (v : Validator) : Middleware :=
  match v with
  | SectionValidator Body s o => ValidatorBase.validateBody s o
  | SectionValidator Cookies s o => ValidatorBase.validateCookies s o
  | SectionValidator Headers s o => ValidatorBase.validateHeaders s o
  | SectionValidator Params s o => ValidatorBase.validateParams s o
  | SectionValidator Query s o => ValidatorBase.validateQuery s o
  | AggregateValidator ss o => ValidatorBase.validateAll ss o
  end.

(** The pipeline step a [RequestValidator] instance gives for a
    validator. *)
Definition method (this : RequestValidator.t) (v : Validator) : Middleware :=
  match v with
  | SectionValidator Body s o => RequestValidator.validateBody this s o
  | SectionValidator Cookies s o => RequestValidator.validateCookies this s o
  | SectionValidator Headers s o => RequestValidator.validateHeaders this s o
  | SectionValidator Params s o => RequestValidator.validateParams this s o
  | SectionValidator Query s o => RequestValidator.validateQuery this s o
  | AggregateValidator ss o => RequestValidator.validateAll this ss o
  end.

(** The engine's verdict on a section of a request. *)
Definition verdict (schema : Joi.ObjectSchema) (sec : SectionName)
    (req : Request) (o : option Joi.ValidationOptions)
  : option Joi.ValidationError :=
  Joi.error (Joi.validate schema (sectionView sec req) o).

(** Some call to the continuation carried an error. *)
Definition errorPassed (w : World) : Prop :=
  exists e, In (Some e) (nextCalls w).

(** The options a validator hands to the engine: the exported section
    validators spread the override over [commonValidatorOptions], the
    exported aggregate validator forwards the override as it is. *)
Definition optionsOfExported (v : Validator) : option Joi.ValidationOptions :=
  match v with
  | SectionValidator _ _ o =>
      Some (spread ValidatorBase.commonValidatorOptions o)
  | AggregateValidator _ o => o
  end.

(** Every method of the class spreads the override over the instance's
    [commonValidationOptions]. *)
Definition optionsOfMethod (this : RequestValidator.t) (v : Validator)
  : option Joi.ValidationOptions :=
  match v with
  | SectionValidator _ _ o
  | AggregateValidator _ o =>
      Some (spread (RequestValidator.commonValidationOptions this) o)
  end.

(** The override a validator was built with. *)
Definition overrideOf (v : Validator) : option Joi.ValidationOptions :=
  match v with
  | SectionValidator _ _ o
  | AggregateValidator _ o => o
  end.

(** What a validator finds for a section under given options:
    [undefined] when it holds no schema for it, the engine's verdict
    otherwise. *)
Definition finding (v : Validator) (o : option Joi.ValidationOptions)
    (req : Request) (sec : SectionName) : option Joi.ValidationError :=
  match inScope v sec with
  | Some s => verdict s sec req o
  | None => None
  end.

(** The engine calls a validator is expected to make, in order. *)
Definition callsFor (v : Validator) (o : option Joi.ValidationOptions)
    (req : Request) : list EngineCall :=
  flat_map
    (fun sec =>
       match inScope v sec with
       | Some s => [{| ec_schema := s; ec_value := sectionView sec req;
                       ec_options := o |}]
       | None => []
       end)
    allSections.

(** The object a validator hands to the error constructor on failure. *)
Definition payloadFor (v : Validator) (o : option Joi.ValidationOptions)
    (req : Request) : IValidateAllResponse :=
  match v with
  | SectionValidator sec _ _ => [(sectionKey sec, finding v o req sec)]
  | AggregateValidator _ _ =>
      map (fun sec => (sectionKey sec, finding v o req sec)) allSections
  end.

(** The argument a validator gives to the continuation. *)
Definition answerFor (v : Validator) (o : option Joi.ValidationOptions)
    (req : Request) : option errors.BaseError :=
  if existsb truthy (map snd (payloadFor v o req))
  then Some (errors.RequestValidationMiddlewareError
               (errors.PObject (payloadFor v o req)))
  else None.

(** Two schemas that give the same errors, whatever values they convert
    to. *)
Definition sameErrors (s1 s2 : Joi.ObjectSchema) : Prop :=
  forall x o, Joi.error (Joi.validate s1 x o) = Joi.error (Joi.validate s2 x o).

(** Two validators that differ at most in the values their schemas
    convert to. *)
Inductive sameErrorsV : Validator -> Validator -> Prop :=
  | same_section (sec : SectionName) (s1 s2 : Joi.ObjectSchema)
      (o : option Joi.ValidationOptions) :
      sameErrors s1 s2 ->
      sameErrorsV (SectionValidator sec s1 o) (SectionValidator sec s2 o)
  | same_aggregate (ss1 ss2 : IValidateAllSchema)
      (o : option Joi.ValidationOptions) :
      (forall sec,
         match schemaOf ss1 sec, schemaOf ss2 sec with
         | Some s1, Some s2 => sameErrors s1 s2
         | None, None => True
         | _, _ => False
         end) ->
      sameErrorsV (AggregateValidator ss1 o) (AggregateValidator ss2 o).

(** The section validator of the earlier revision for a section; it takes
    no options. *)
Definition earlierSection (sec : SectionName) (s : Joi.ObjectSchema)
  : Middleware :=
  match sec with
  | Body => ValidatorBaseFixedOptions.validateBody s
  | Cookies => ValidatorBaseFixedOptions.validateCookies s
  | Headers => ValidatorBaseFixedOptions.validateHeaders s
  | Params => ValidatorBaseFixedOptions.validateParams s
  | Query => ValidatorBaseFixedOptions.validateQuery s
  end.

(** The engine call made for a section: none when no schema is mapped. *)
Definition callOf (schema : option Joi.ObjectSchema) (x : JsValue)
    (o : option Joi.ValidationOptions) : list EngineCall :=
  match schema with
  | Some s => [{| ec_schema := s; ec_value := x; ec_options := o |}]
  | None => []
  end.

(** Property read [o.k] on options that may be [undefined]. *)
Definition field (o : option Joi.ValidationOptions) (k : string)
  : option JsValue :=
  match o with
  | Some m => m !! k
  | None => None
  end.

(** The keys of options that may be [undefined]. *)
Definition keysOf (o : option Joi.ValidationOptions) : gset string :=
  match o with
  | Some m => dom m
  | None => ∅
  end.

(** * Properties *)

(** ** How a step acts on the world *)

Ltac unfold_steps :=
  unfold exported, method,
    ValidatorBase.validateBody, ValidatorBase.validateCookies,
    ValidatorBase.validateHeaders, ValidatorBase.validateParams,
    ValidatorBase.validateQuery, ValidatorBase.validateAll,
    ValidatorBase.getBodyValidationErrors,
    ValidatorBase.getCookiesValidationErrors,
    ValidatorBase.getHeadersValidationErrors,
    ValidatorBase.getParamsValidationErrors,
    ValidatorBase.getQueryValidationErrors,
    ValidatorBase.getAllValidationErrors,
    ValidatorBaseFixedOptions.validateAll,
    ValidatorBaseFixedOptions.getAllValidationErrors,
    RequestValidator.validateBody, RequestValidator.validateCookies,
    RequestValidator.validateHeaders, RequestValidator.validateParams,
    RequestValidator.validateQuery, RequestValidator.validateAll,
    RequestValidator.getBodyValidationErrors,
    RequestValidator.getCookiesValidationErrors,
    RequestValidator.getHeadersValidationErrors,
    RequestValidator.getParamsValidationErrors,
    RequestValidator.getQueryValidationErrors,
    RequestValidator.getAllValidationErrors,
    optValidate, run, bind, ret, readReq, callValidate, next in *.

(** The result of one optional-chaining evaluation, as a state
    transformer. *)
Lemma optValidate_run (schema : option Joi.ObjectSchema)
    (view : Request -> JsValue) (o : option Joi.ValidationOptions)
    (w : World) :
  optValidate schema view o w =
  match schema with
  | None => (None, w)
  | Some s =>
      (Joi.error (Joi.validate s (view (request w)) o),
       {| request := request w;
          engineCalls := engineCalls w ++
            [{| ec_schema := s; ec_value := view (request w);
                ec_options := o |}];
          nextCalls := nextCalls w |})
  end.
Proof. destruct schema; reflexivity. Qed.

(** A step only appends to the two logs, and what it appends depends on
    the request alone. *)
Lemma exported_frame (v : Validator) (w : World) :
  run (exported v) w =
  {| request := request w;
     engineCalls := engineCalls w ++
       engineCalls (run (exported v) (incoming (request w)));
     nextCalls := nextCalls w ++
       nextCalls (run (exported v) (incoming (request w))) |}.
Proof.
  destruct v as [sec s o | ss o].
  - destruct sec; unfold_steps; cbn;
      match goal with
      | |- context [Joi.error ?r] => destruct (Joi.error r)
      end; reflexivity.
  - destruct ss as [[b|] [c|] [h|] [p|] [q|]]; unfold_steps; cbn;
      repeat match goal with
      | |- context [Joi.error ?r] => destruct (Joi.error r); cbn
      end; rewrite ?app_nil_r, <- ?app_assoc; reflexivity.
Qed.

Ltac unfold_answers :=
  unfold answerFor, payloadFor, callsFor, finding, inScope, verdict,
    allSections in *.

Ltac case_verdicts :=
  repeat match goal with
  | |- context [Joi.error ?r] => destruct (Joi.error r); cbn
  end.

Lemma exported_incoming (v : Validator) (req : Request) :
  run (exported v) (incoming req) =
  {| request := req;
     engineCalls := callsFor v (optionsOfExported v) req;
     nextCalls := [answerFor v (optionsOfExported v) req] |}.
Proof.
  destruct v as [sec s o | ss o].
  - destruct sec; unfold_steps; unfold_answers; cbn;
      repeat (case_decide; try congruence); cbn;
      case_verdicts; reflexivity.
  - destruct ss as [[b|] [c|] [h|] [p|] [q|]]; unfold_steps;
      unfold_answers; cbn; case_verdicts; reflexivity.
Qed.

Lemma method_frame (this : RequestValidator.t) (v : Validator) (w : World) :
  run (method this v) w =
  {| request := request w;
     engineCalls := engineCalls w ++
       engineCalls (run (method this v) (incoming (request w)));
     nextCalls := nextCalls w ++
       nextCalls (run (method this v) (incoming (request w))) |}.
Proof.
  destruct v as [sec s o | ss o].
  - destruct sec; unfold_steps; cbn; case_verdicts; reflexivity.
  - destruct ss as [[b|] [c|] [h|] [p|] [q|]]; unfold_steps; cbn;
      case_verdicts; rewrite ?app_nil_r, <- ?app_assoc; reflexivity.
Qed.

Lemma method_incoming (this : RequestValidator.t) (v : Validator)
    (req : Request) :
  run (method this v) (incoming req) =
  {| request := req;
     engineCalls := callsFor v (optionsOfMethod this v) req;
     nextCalls := [answerFor v (optionsOfMethod this v) req] |}.
Proof.
  destruct v as [sec s o | ss o].
  - destruct sec; unfold_steps; unfold_answers; cbn;
      repeat (case_decide; try congruence); cbn;
      case_verdicts; reflexivity.
  - destruct ss as [[b|] [c|] [h|] [p|] [q|]]; unfold_steps;
      unfold_answers; cbn; case_verdicts; reflexivity.
Qed.

(** The complete effect of an exported step on any world. *)
Lemma exported_run (v : Validator) (w : World) :
  run (exported v) w =
  {| request := request w;
     engineCalls := engineCalls w ++
       callsFor v (optionsOfExported v) (request w);
     nextCalls := nextCalls w ++
       [answerFor v (optionsOfExported v) (request w)] |}.
Proof. rewrite exported_frame, exported_incoming. reflexivity. Qed.

(** The complete effect of a method's step on any world. *)
Lemma method_run (this : RequestValidator.t) (v : Validator) (w : World) :
  run (method this v) w =
  {| request := request w;
     engineCalls := engineCalls w ++
       callsFor v (optionsOfMethod this v) (request w);
     nextCalls := nextCalls w ++
       [answerFor v (optionsOfMethod this v) (request w)] |}.
Proof. rewrite method_frame, method_incoming. reflexivity. Qed.

(** ** Facts about the answer of a validator *)

Lemma getProp_payloadFor (v : Validator) (o : option Joi.ValidationOptions)
    (req : Request) (sec : SectionName) :
  getProp (sectionKey sec) (payloadFor v o req) = finding v o req sec.
Proof.
  destruct v as [sec' s o' | ss o'].
  - unfold payloadFor, finding, inScope.
    destruct sec, sec'; cbn; repeat (case_decide; try congruence);
      reflexivity.
  - destruct sec; reflexivity.
Qed.

Lemma ownKeys_payloadFor (v : Validator) (o : option Joi.ValidationOptions)
    (req : Request) :
  ownKeys (payloadFor v o req) =
  match v with
  | SectionValidator sec _ _ => [sectionKey sec]
  | AggregateValidator _ _ => map sectionKey allSections
  end.
Proof. destruct v; reflexivity. Qed.

Lemma finding_Some (v : Validator) (o : option Joi.ValidationOptions)
    (req : Request) (sec : SectionName) (e : Joi.ValidationError) :
  finding v o req sec = Some e <->
  exists s, inScope v sec = Some s /\ verdict s sec req o = Some e.
Proof.
  unfold finding. destruct (inScope v sec) as [s|].
  - split; [eauto | intros (s' & [= <-] & H); exact H].
  - split; [discriminate | intros (s' & [=] & _)].
Qed.

(** The sections whose findings the payload lists include every section
    the validator holds a schema for. *)
Lemma finding_listed (v : Validator) (o : option Joi.ValidationOptions)
    (req : Request) (sec : SectionName) (e : Joi.ValidationError) :
  finding v o req sec = Some e ->
  In (Some e) (map snd (payloadFor v o req)).
Proof.
  intros H. destruct v as [sec' s o' | ss o'].
  - assert (sec = sec') as ->.
    { unfold finding, inScope in H. case_decide; [assumption | discriminate]. }
    cbn [payloadFor map snd]. rewrite H. left; reflexivity.
  - cbn [payloadFor]. rewrite map_map. cbn [snd].
    apply in_map_iff. exists sec. split; [exact H |].
    destruct sec; cbn; tauto.
Qed.

Lemma listed_finding (v : Validator) (o : option Joi.ValidationOptions)
    (req : Request) (x : option Joi.ValidationError) :
  In x (map snd (payloadFor v o req)) ->
  exists sec, finding v o req sec = x.
Proof.
  destruct v as [sec' s o' | ss o'].
  - cbn [payloadFor map snd]. intros [<- | []]. eauto.
  - cbn [payloadFor]. rewrite map_map. cbn [snd].
    intros (sec & <- & _)%in_map_iff. eauto.
Qed.

Lemma answerFor_Some_iff (v : Validator) (o : option Joi.ValidationOptions)
    (req : Request) :
  (exists err, answerFor v o req = Some err) <->
  exists sec s e, inScope v sec = Some s /\ verdict s sec req o = Some e.
Proof.
  unfold answerFor.
  destruct (existsb truthy (map snd (payloadFor v o req))) eqn:E.
  - split; [intros _ | eauto].
    apply existsb_exists in E as (x & Hin & Hx).
    destruct x as [e|]; [| discriminate].
    apply listed_finding in Hin as (sec & Hsec).
    apply finding_Some in Hsec as (s & Hs & Hv). eauto.
  - split; [intros (err & [=]) |].
    intros (sec & s & e & Hs & Hv).
    assert (existsb truthy (map snd (payloadFor v o req)) = true) as E'.
    { apply existsb_exists. exists (Some e). split; [| reflexivity].
      apply (finding_listed v o req sec). apply finding_Some; eauto. }
    congruence.
Qed.

Lemma answerFor_Some (v : Validator) (o : option Joi.ValidationOptions)
    (req : Request) (err : errors.BaseError) :
  answerFor v o req = Some err ->
  err = errors.RequestValidationMiddlewareError
          (errors.PObject (payloadFor v o req)).
Proof.
  unfold answerFor.
  destruct (existsb truthy (map snd (payloadFor v o req)));
    [intros [= <-]; reflexivity | discriminate].
Qed.

(** ** The continuation *)

(** C8. Each validator's pipeline step calls the continuation exactly
    once per request: whatever calls were logged before, the step adds one
    call and no more.  This holds for the exported middlewares and for the
    methods of the class; the engine is taken to return a verdict. *)
Theorem continuation_called_exactly_once (v : Validator) (w : World)
    (this : RequestValidator.t) :
  (exists arg,
     nextCalls (run (exported v) w) = (nextCalls w ++ [arg])%list) /\
  (exists arg,
     nextCalls (run (method this v) w) = (nextCalls w ++ [arg])%list) /\
  length (nextCalls (run (exported v) (incoming (request w)))) = 1 /\
  length (nextCalls (run (method this v) (incoming (request w)))) = 1.
Proof.
  rewrite exported_run, method_run, exported_incoming, method_incoming.
  cbn [nextCalls length]. repeat split; eauto.
Qed.

(** What the single call to the continuation says about the findings. *)
Lemma answer_iff_some_schema_fails (v : Validator)
    (o : option Joi.ValidationOptions) (req : Request) (w : World) :
  nextCalls w = [answerFor v o req] ->
  (errorPassed w <->
   exists sec s, inScope v sec = Some s /\ is_Some (verdict s sec req o)) /\
  (forall sec err p,
     inScope v sec = None ->
     In (Some err) (nextCalls w) ->
     errors.errors err = Some (errors.PObject p) ->
     getProp (sectionKey sec) p = None).
Proof.
  intros Hw. unfold errorPassed. rewrite Hw. split.
  - split.
    + intros (err & [H | []]).
      destruct (proj1 (answerFor_Some_iff v o req))
        as (sec & s & e & Hs & Hv); [eauto |].
      exists sec, s. rewrite Hv. eauto.
    + intros (sec & s & Hs & e & Hv).
      destruct (proj2 (answerFor_Some_iff v o req)) as (err & Herr);
        [eauto 6 |].
      exists err. left. congruence.
  - intros sec err p Hnone [H | []] Hp.
    apply answerFor_Some in H. subst err. cbn in Hp.
    injection Hp as <-.
    rewrite getProp_payloadFor. unfold finding. rewrite Hnone. reflexivity.
Qed.

(** C2. A validation error reaches the continuation if and only if some
    section the validator holds a schema for is reported as failing by the
    engine, under the options the validator evaluates with, on the
    request's value for that section; and in the payload of such an error
    the entry of a section without schema is never a failure.  This holds
    for each exported validator and for each method of the class. *)
Theorem error_iff_some_schema_fails (this : RequestValidator.t)
    (v : Validator) (req : Request) :
  (errorPassed (run (exported v) (incoming req)) <->
   exists sec s, inScope v sec = Some s /\
     is_Some (verdict s sec req (optionsOfExported v))) /\
  (errorPassed (run (method this v) (incoming req)) <->
   exists sec s, inScope v sec = Some s /\
     is_Some (verdict s sec req (optionsOfMethod this v))) /\
  (forall sec err p,
     inScope v sec = None ->
     In (Some err) (nextCalls (run (exported v) (incoming req))) \/
     In (Some err) (nextCalls (run (method this v) (incoming req))) ->
     errors.errors err = Some (errors.PObject p) ->
     getProp (sectionKey sec) p = None).
Proof.
  destruct (answer_iff_some_schema_fails v (optionsOfExported v) req
              (run (exported v) (incoming req))) as [He He'];
    [rewrite exported_incoming; reflexivity |].
  destruct (answer_iff_some_schema_fails v (optionsOfMethod this v) req
              (run (method this v) (incoming req))) as [Hm Hm'];
    [rewrite method_incoming; reflexivity |].
  split; [exact He |]. split; [exact Hm |].
  intros sec err p Hnone [H | H] Hp; eauto.
Qed.

(** C3. When the engine reports the request's value for section S as
    violating the schema of the section validator for S, the validator
    calls the continuation with one error, and the [errors] field of that
    error holds the object whose single own key is S and whose entry for S
    is that section's diagnostic value. *)
Theorem section_failure_is_keyed_by_section (sec : SectionName)
    (schema : Joi.ObjectSchema) (override : option Joi.ValidationOptions)
    (req : Request) (e : Joi.ValidationError) :
  verdict schema sec req
    (Some (spread ValidatorBase.commonValidatorOptions override)) = Some e ->
  exists (err : errors.BaseError) (p : IValidateAllResponse),
    nextCalls (run (exported (SectionValidator sec schema override))
                 (incoming req)) = [Some err] /\
    errors.errors err = Some (errors.PObject p) /\
    p = [(sectionKey sec, Some e)] /\
    ownKeys p = [sectionKey sec] /\
    getProp (sectionKey sec) p = Some e.
Proof.
  intros H.
  exists (errors.RequestValidationMiddlewareError
            (errors.PObject [(sectionKey sec, Some e)])),
         [(sectionKey sec, Some e)].
  split.
  { rewrite exported_incoming. cbn [nextCalls].
    unfold answerFor, payloadFor, finding, inScope.
    rewrite decide_True by reflexivity.
    cbn [optionsOfExported]. rewrite H. reflexivity. }
  split; [reflexivity |]. split; [reflexivity |]. split; [reflexivity |].
  destruct sec; reflexivity.
Qed.

(** The methods of the class do the same, under the options of the
    instance. *)
Lemma method_failure_is_keyed_by_section (this : RequestValidator.t)
    (sec : SectionName) (schema : Joi.ObjectSchema)
    (override : option Joi.ValidationOptions) (req : Request)
    (e : Joi.ValidationError) :
  verdict schema sec req
    (Some (spread (RequestValidator.commonValidationOptions this) override))
    = Some e ->
  exists (err : errors.BaseError) (p : IValidateAllResponse),
    nextCalls (run (method this (SectionValidator sec schema override))
                 (incoming req)) = [Some err] /\
    errors.errors err = Some (errors.PObject p) /\
    p = [(sectionKey sec, Some e)] /\
    ownKeys p = [sectionKey sec] /\
    getProp (sectionKey sec) p = Some e.
Proof.
  intros H.
  exists (errors.RequestValidationMiddlewareError
            (errors.PObject [(sectionKey sec, Some e)])),
         [(sectionKey sec, Some e)].
  split.
  { rewrite method_incoming. cbn [nextCalls].
    unfold answerFor, payloadFor, finding, inScope.
    rewrite decide_True by reflexivity.
    cbn [optionsOfMethod]. rewrite H. reflexivity. }
  split; [reflexivity |]. split; [reflexivity |]. split; [reflexivity |].
  destruct sec; reflexivity.
Qed.

Lemma section_failure_is_keyed_by_section_witness :
  exists (err : errors.BaseError) (p : IValidateAllResponse),
    nextCalls (run (exported (SectionValidator Query Sample.twoRequired None))
                 (incoming Sample.emptyRequest)) = [Some err] /\
    errors.errors err = Some (errors.PObject p) /\
    p = [("query",
          Some {| Joi.details := [Sample.required "name";
                                  Sample.required "email"] |})] /\
    ownKeys p = ["query"] /\
    getProp "query" p =
      Some {| Joi.details := [Sample.required "name";
                              Sample.required "email"] |}.
Proof.
  apply (section_failure_is_keyed_by_section Query Sample.twoRequired None
           Sample.emptyRequest).
  vm_compute. reflexivity.
Defined.

(** C10. The aggregate validator built on an empty schema set lets every
    request pass: its one call to the continuation carries no error,
    whatever the request and the options. *)
Theorem empty_schema_set_passes (o : option Joi.ValidationOptions)
    (this : RequestValidator.t) (w : World) :
  nextCalls (run (ValidatorBase.validateAll Sample.noSchemas o) w) =
    (nextCalls w ++ [None])%list /\
  nextCalls (run (RequestValidator.validateAll this Sample.noSchemas o) w) =
    (nextCalls w ++ [None])%list /\
  engineCalls (run (ValidatorBase.validateAll Sample.noSchemas o) w) =
    engineCalls w.
Proof. repeat split. Qed.

(** ** The options that reach the engine *)

(** Lookup in a spread: the override's field when it has one, the
    baseline's otherwise. *)
Lemma lookup_spread (base : Joi.ValidationOptions)
    (override : option Joi.ValidationOptions) (k : string) :
  spread base override !! k =
  match override with
  | Some o =>
      match o !! k with
      | Some x => Some x
      | None => base !! k
      end
  | None => base !! k
  end.
Proof.
  destruct override as [o|]; [| reflexivity].
  unfold spread. rewrite lookup_union.
  destruct (o !! k), (base !! k); reflexivity.
Qed.

(** C5. The options merger is a total function of the baseline
    [{ abortEarly: false }] and an optional override: a field the override
    has replaces the baseline's, a field it lacks keeps the baseline's
    value, and without override the result is the baseline itself.  This
    holds for the spread of the exported section validators and for the
    constructor of the class. *)
Theorem options_merger_contract (override : option Joi.ValidationOptions)
    (k : string) :
  spread ValidatorBase.commonValidatorOptions override !! k =
    match override with
    | Some o =>
        match o !! k with
        | Some x => Some x
        | None => ValidatorBase.commonValidatorOptions !! k
        end
    | None => ValidatorBase.commonValidatorOptions !! k
    end /\
  spread ValidatorBase.commonValidatorOptions None =
    ValidatorBase.commonValidatorOptions /\
  ValidatorBase.commonValidatorOptions = {[ "abortEarly" := JBool false ]} /\
  RequestValidator.commonValidationOptions
    (RequestValidator.constructor override) =
    spread ValidatorBase.commonValidatorOptions override /\
  RequestValidator.defaultValidationOptions
    (RequestValidator.constructor override) =
    ValidatorBase.commonValidatorOptions.
Proof.
  split; [apply lookup_spread |].
  repeat split; destruct override; reflexivity.
Qed.

(** The exported aggregate validator gives the engine the override it
    received, untouched, for every section. *)
Lemma exported_validateAll_forwards_options (ss : IValidateAllSchema)
    (o : option Joi.ValidationOptions) (req : Request) (c : EngineCall) :
  In c (engineCalls (run (ValidatorBase.validateAll ss o) (incoming req))) ->
  ec_options c = o.
Proof.
  change (ValidatorBase.validateAll ss o)
    with (exported (AggregateValidator ss o)).
  rewrite exported_incoming. cbn [engineCalls optionsOfExported].
  unfold callsFor. rewrite in_flat_map.
  intros (sec & _ & H). destruct (inScope _ sec); [| destruct H].
  destruct H as [<- | []]. reflexivity.
Qed.

Lemma callsFor_options (v : Validator) (o : option Joi.ValidationOptions)
    (req : Request) (c : EngineCall) :
  In c (callsFor v o req) -> ec_options c = o.
Proof.
  unfold callsFor. rewrite in_flat_map.
  intros (sec & _ & H). destruct (inScope v sec); [| destruct H].
  destruct H as [<- | []]. reflexivity.
Qed.

(** Every exported section validator built without override evaluates
    with [abortEarly: false]. *)
Lemma section_validators_collect_all (sec : SectionName)
    (s : Joi.ObjectSchema) (req : Request) (c : EngineCall) :
  In c (engineCalls (run (exported (SectionValidator sec s None))
                       (incoming req))) ->
  Sample.abortEarly (ec_options c) = false.
Proof.
  rewrite exported_incoming. cbn [engineCalls].
  intros ->%callsFor_options. reflexivity.
Qed.

(** So does every method, the aggregate one included, of an instance
    built and called without override. *)
Lemma methods_collect_all (v : Validator) (req : Request) (c : EngineCall) :
  overrideOf v = None ->
  In c (engineCalls (run (method (RequestValidator.constructor None) v)
                       (incoming req))) ->
  Sample.abortEarly (ec_options c) = false.
Proof.
  intros Hv. rewrite method_incoming. cbn [engineCalls].
  intros ->%callsFor_options.
  destruct v; cbn in Hv; subst; reflexivity.
Qed.

(** So did the aggregate validator in the earlier revision. *)
Lemma earlier_validateAll_collects_all (ss : IValidateAllSchema)
    (req : Request) (c : EngineCall) :
  In c (engineCalls (run (ValidatorBaseFixedOptions.validateAll ss)
                       (incoming req))) ->
  Sample.abortEarly (ec_options c) = false.
Proof.
  intros H.
  destruct ss as [[b|] [c1|] [h|] [p|] [q|]]; unfold_steps; cbn in H;
    repeat match type of H with
    | context [Joi.error ?r] => destruct (Joi.error r); cbn in H
    end;
    repeat (destruct H as [<- | H]; [reflexivity |]); destruct H.
Qed.

(** C1, on the exported [validateAll] called without override, for a body
    schema requiring two fields and a request whose body has neither: the
    engine is called with no options at all, so [abortEarly: false] never
    reaches it and the body's diagnostics hold the first violation only. *)
Theorem validateAll_without_override_skips_baseline :
  let w := run (ValidatorBase.validateAll Sample.twoRequiredBody None)
               (incoming Sample.emptyRequest) in
  map ec_options (engineCalls w) = [None] /\
  nextCalls w =
    [Some (errors.RequestValidationMiddlewareError
             (errors.PObject
                [("body",
                  Some {| Joi.details := [Sample.required "name"] |});
                 ("cookies", None); ("headers", None);
                 ("params", None); ("query", None)]))].
Proof. split; reflexivity. Qed.

(** The same schema and request through the paths that do spread the
    baseline: both violations are reported. *)
Example validateAll_siblings_report_both :
  let both := Some {| Joi.details := [Sample.required "name";
                                      Sample.required "email"] |} in
  let all := [("body", both); ("cookies", None); ("headers", None);
              ("params", None); ("query", None)] in
  nextCalls (run (ValidatorBase.validateBody Sample.twoRequired None)
               (incoming Sample.emptyRequest)) =
    [Some (errors.RequestValidationMiddlewareError
             (errors.PObject [("body", both)]))] /\
  nextCalls (run (RequestValidator.validateAll
                    (RequestValidator.constructor None)
                    Sample.twoRequiredBody None)
               (incoming Sample.emptyRequest)) =
    [Some (errors.RequestValidationMiddlewareError (errors.PObject all))] /\
  nextCalls (run (ValidatorBaseFixedOptions.validateAll
                    Sample.twoRequiredBody)
               (incoming Sample.emptyRequest)) =
    [Some (errors.RequestValidationMiddlewareError (errors.PObject all))].
Proof. repeat split; vm_compute; reflexivity. Qed.

(** ** The aggregate error *)

(** What [getAllValidationErrors] returns, in the exported module and in
    the class alike: the object of the five findings when one of them is
    an error, [undefined] otherwise; the world only gains engine calls. *)
Lemma getAllValidationErrors_result (this : RequestValidator.t)
    (ss : IValidateAllSchema) (o : option Joi.ValidationOptions)
    (w : World) :
  let p := payloadFor (AggregateValidator ss o) o (request w) in
  let r := if existsb truthy (map snd p) then Some p else None in
  fst (ValidatorBase.getAllValidationErrors ss o w) = r /\
  fst (RequestValidator.getAllValidationErrors this ss o w) = r.
Proof.
  destruct ss as [[b|] [c|] [h|] [p|] [q|]]; unfold_steps;
    unfold_answers; cbn; case_verdicts; split; reflexivity.
Qed.

(** C4, as the code has it.  When some section with a schema fails, the
    aggregate error returned by [getAllValidationErrors] (and carried by
    the error [validateAll] passes on) has the five section names as its
    own keys; every failing section's key holds that section's
    diagnostics, every passing section's key holds [undefined], and so
    does the key of every section without schema: such a section carries
    no diagnostic, but its key is present in the object. *)
Theorem aggregate_error_entries (this : RequestValidator.t)
    (ss : IValidateAllSchema) (o : option Joi.ValidationOptions)
    (req : Request) (A : SectionName) (sA : Joi.ObjectSchema)
    (eA : Joi.ValidationError) :
  schemaOf ss A = Some sA ->
  verdict sA A req o = Some eA ->
  exists p : IValidateAllResponse,
    fst (ValidatorBase.getAllValidationErrors ss o (incoming req)) = Some p /\
    fst (RequestValidator.getAllValidationErrors this ss o (incoming req))
      = Some p /\
    nextCalls (run (ValidatorBase.validateAll ss o) (incoming req)) =
      [Some (errors.RequestValidationMiddlewareError (errors.PObject p))] /\
    ownKeys p = ["body"; "cookies"; "headers"; "params"; "query"] /\
    (forall sec s e,
       schemaOf ss sec = Some s -> verdict s sec req o = Some e ->
       getProp (sectionKey sec) p = Some e) /\
    (forall sec s,
       schemaOf ss sec = Some s -> verdict s sec req o = None ->
       getProp (sectionKey sec) p = None) /\
    (forall sec,
       schemaOf ss sec = None ->
       getProp (sectionKey sec) p = None /\ In (sectionKey sec) (ownKeys p)).
Proof.
  intros HsA HeA.
  set (v := AggregateValidator ss o).
  assert (existsb truthy (map snd (payloadFor v o req)) = true) as Hany.
  { apply existsb_exists. exists (Some eA). split; [| reflexivity].
    apply (finding_listed v o req A). apply finding_Some. eauto. }
  exists (payloadFor v o req).
  destruct (getAllValidationErrors_result this ss o (incoming req))
    as [Hbase Hclass].
  cbn zeta in Hbase, Hclass. cbn [request incoming] in Hbase, Hclass.
  fold v in Hbase, Hclass. rewrite Hany in Hbase, Hclass.
  split; [exact Hbase |]. split; [exact Hclass |].
  split.
  { change (ValidatorBase.validateAll ss o) with (exported v).
    rewrite exported_incoming. cbn [nextCalls optionsOfExported v].
    unfold answerFor. fold v. rewrite Hany. reflexivity. }
  split; [reflexivity |].
  repeat split.
  - intros sec s e Hs He. rewrite getProp_payloadFor.
    unfold finding. cbn [inScope v]. rewrite Hs. exact He.
  - intros sec s Hs He. rewrite getProp_payloadFor.
    unfold finding. cbn [inScope v]. rewrite Hs. exact He.
  - rewrite getProp_payloadFor.
    unfold finding. cbn [inScope v]. rewrite H. reflexivity.
  - destruct sec; cbn; tauto.
Qed.

Lemma aggregate_error_entries_witness :
  exists p : IValidateAllResponse,
    fst (ValidatorBase.getAllValidationErrors Sample.twoRequiredBody
           None (incoming Sample.emptyRequest)) = Some p /\
    getProp "body" p = Some {| Joi.details := [Sample.required "name"] |} /\
    getProp "query" p = None.
Proof.
  destruct (aggregate_error_entries (RequestValidator.constructor None)
              Sample.twoRequiredBody None Sample.emptyRequest Body
              Sample.twoRequired {| Joi.details := [Sample.required "name"] |})
    as (p & Hp & _ & _ & _ & Hfail & _ & Hnone).
  - reflexivity.
  - vm_compute. reflexivity.
  - exists p. split; [exact Hp |]. split.
    + apply (Hfail Body Sample.twoRequired);
        [reflexivity | vm_compute; reflexivity].
    + apply (Hnone Query). reflexivity.
Defined.

(** C4, as the specification words it, fails: the schema set below maps
    the body only, the body fails, and the aggregate error still has the
    key "cookies" among its own keys, holding [undefined]. *)
Lemma unmapped_section_is_an_own_key :
  exists p : IValidateAllResponse,
    fst (ValidatorBase.getAllValidationErrors Sample.twoRequiredBody
           None (incoming Sample.emptyRequest)) = Some p /\
    schemaOf Sample.twoRequiredBody Cookies = None /\
    In (sectionKey Cookies) (ownKeys p) /\
    In (sectionKey Cookies, None) p.
Proof.
  eexists. split; [vm_compute; reflexivity |].
  split; [reflexivity |]. split; cbn; tauto.
Qed.

(** ** The error handed to the framework *)

(** C6. The error every validator constructs has the category
    "validation", the message "Bad Request", the status code 400, and in
    its [errors] field the very payload the validator built; and whatever
    a validator passes to the continuation is either nothing or an error
    so constructed. *)
Theorem middleware_error_fields (this : RequestValidator.t) :
  (forall p : errors.ErrorsPayload,
     let e := errors.RequestValidationMiddlewareError p in
     errors.category e = "validation" /\
     errors.message e = "Bad Request" /\
     errors.statusCode e = Some 400%Z /\
     errors.errors e = Some p) /\
  (forall v req arg,
     In arg (nextCalls (run (exported v) (incoming req))) ->
     arg = None \/
     arg = Some (errors.RequestValidationMiddlewareError
                   (errors.PObject
                      (payloadFor v (optionsOfExported v) req)))) /\
  (forall v req arg,
     In arg (nextCalls (run (method this v) (incoming req))) ->
     arg = None \/
     arg = Some (errors.RequestValidationMiddlewareError
                   (errors.PObject
                      (payloadFor v (optionsOfMethod this v) req)))).
Proof.
  split; [intros p; repeat split |].
  split; intros v req arg.
  - rewrite exported_incoming. cbn [nextCalls]. intros [<- | []].
    destruct (answerFor v _ req) as [err|] eqn:E; [right | left; reflexivity].
    apply answerFor_Some in E. congruence.
  - rewrite method_incoming. cbn [nextCalls]. intros [<- | []].
    destruct (answerFor v _ req) as [err|] eqn:E; [right | left; reflexivity].
    apply answerFor_Some in E. congruence.
Qed.

(** C7, as the code has it.  The [errors] field is an object keyed by
    section name for both kinds of validator: a section validator stores
    the object whose single key is its section, holding that section's
    error, and the aggregate validator stores the object of all five
    section keys, each holding the section's error or [undefined]. *)
Theorem errors_field_shape (v : Validator) (req : Request)
    (err : errors.BaseError) :
  In (Some err) (nextCalls (run (exported v) (incoming req))) ->
  exists p : IValidateAllResponse,
    errors.errors err = Some (errors.PObject p) /\
    ownKeys p =
      match v with
      | SectionValidator sec _ _ => [sectionKey sec]
      | AggregateValidator _ _ =>
          ["body"; "cookies"; "headers"; "params"; "query"]
      end /\
    (forall sec, getProp (sectionKey sec) p =
                 finding v (optionsOfExported v) req sec).
Proof.
  rewrite exported_incoming. cbn [nextCalls]. intros [H | []].
  apply answerFor_Some in H. subst err.
  exists (payloadFor v (optionsOfExported v) req).
  split; [reflexivity |]. split.
  - rewrite ownKeys_payloadFor. destruct v; reflexivity.
  - intros sec. apply getProp_payloadFor.
Qed.

Lemma errors_field_shape_witness :
  exists p : IValidateAllResponse,
    errors.errors
      (errors.RequestValidationMiddlewareError
         (errors.PObject
            [("body",
              Some {| Joi.details := [Sample.required "name";
                                      Sample.required "email"] |})]))
      = Some (errors.PObject p) /\
    ownKeys p = ["body"].
Proof.
  destruct (errors_field_shape (SectionValidator Body Sample.twoRequired None)
              Sample.emptyRequest
              (errors.RequestValidationMiddlewareError
                 (errors.PObject
                    [("body",
                      Some {| Joi.details := [Sample.required "name";
                                              Sample.required "email"] |})])))
    as (p & Hp & Hkeys & _).
  - vm_compute. left. reflexivity.
  - exists p. split; [exact Hp | exact Hkeys].
Defined.

(** C7, as the specification words it, fails: the body validator on a
    failing body stores the object [{ body: error }], which is not the
    bare error. *)
Lemma section_payload_is_not_the_bare_error :
  exists (e : Joi.ValidationError) (err : errors.BaseError),
    verdict Sample.twoRequired Body Sample.emptyRequest
      (Some (spread ValidatorBase.commonValidatorOptions None)) = Some e /\
    nextCalls (run (ValidatorBase.validateBody Sample.twoRequired None)
                 (incoming Sample.emptyRequest)) = [Some err] /\
    errors.errors err = Some (errors.PObject [("body", Some e)]) /\
    errors.errors err <> Some (errors.PValidationError e).
Proof.
  eexists. eexists.
  split; [vm_compute; reflexivity |].
  split; [vm_compute; reflexivity |].
  split; [reflexivity | discriminate].
Qed.

(** ** The request *)

Lemma sameErrorsV_answerFor (v1 v2 : Validator)
    (o : option Joi.ValidationOptions) (req : Request) :
  sameErrorsV v1 v2 -> answerFor v1 o req = answerFor v2 o req.
Proof.
  intros H.
  assert (payloadFor v1 o req = payloadFor v2 o req) as Hp.
  { destruct H as [sec s1 s2 o' H | ss1 ss2 o' H].
    - unfold payloadFor, finding, inScope, verdict.
      rewrite !decide_True by reflexivity. rewrite H. reflexivity.
    - unfold payloadFor. apply map_ext. intros sec. f_equal.
      unfold finding, verdict. cbn [inScope]. specialize (H sec).
      destruct (schemaOf ss1 sec), (schemaOf ss2 sec); try contradiction;
        [apply H | reflexivity]. }
  unfold answerFor. rewrite Hp. reflexivity.
Qed.

Lemma sameErrorsV_options (this : RequestValidator.t) (v1 v2 : Validator) :
  sameErrorsV v1 v2 ->
  optionsOfExported v1 = optionsOfExported v2 /\
  optionsOfMethod this v1 = optionsOfMethod this v2.
Proof. intros []; split; reflexivity. Qed.

(** C9. No validator modifies the request: after the step, exported or
    method of the class, the request is the one the step was handed.  And
    of the engine's outcome only the error is used: two validators whose
    schemas report the same errors, whatever they convert the values to,
    call the continuation alike. *)
Theorem request_is_left_untouched (this : RequestValidator.t)
    (v : Validator) (w : World) :
  request (run (exported v) w) = request w /\
  request (run (method this v) w) = request w /\
  (forall v', sameErrorsV v v' ->
     nextCalls (run (exported v) w) = nextCalls (run (exported v') w) /\
     nextCalls (run (method this v) w) = nextCalls (run (method this v') w)).
Proof.
  split; [rewrite exported_run; reflexivity |].
  split; [rewrite method_run; reflexivity |].
  intros v' H. rewrite !exported_run, !method_run. cbn [nextCalls].
  destruct (sameErrorsV_options this v v' H) as [-> ->].
  rewrite !(sameErrorsV_answerFor v v' _ _ H). split; reflexivity.
Qed.

(** A query whose "page" arrives as a string and is converted to a number
    by the schema: the request keeps the string, and the step passes
    exactly as with a schema that converts nothing. *)
Lemma request_is_left_untouched_witness :
  let req :=
    {| body := JUndefined; cookies := JUndefined; headers := JUndefined;
       params := JUndefined; query := JObj [("page", JStr "5")] |} in
  let coercing := Sample.converting (JObj [("page", JNum 5)]) in
  let plain := Sample.converting (JObj [("page", JStr "5")]) in
  request (run (exported (SectionValidator Query coercing None))
             (incoming req)) = req /\
  nextCalls (run (exported (SectionValidator Query coercing None))
               (incoming req)) =
  nextCalls (run (exported (SectionValidator Query plain None))
               (incoming req)) /\
  nextCalls (run (exported (SectionValidator Query coercing None))
               (incoming req)) = [None].
Proof.
  intros req coercing plain.
  destruct (request_is_left_untouched (RequestValidator.constructor None)
              (SectionValidator Query coercing None) (incoming req))
    as (Hreq & _ & Hsame).
  split; [exact Hreq |]. split; [| reflexivity].
  apply (Hsame (SectionValidator Query plain None)).
  constructor. intros x o. reflexivity.
Defined.

(** * Further properties of the code *)

(** ** Which engine calls are made *)

(** X1. The aggregate validator calls the engine once for every section
    that has a schema, in the order body, cookies, headers, params, query,
    each on that section's value of the request and all with the same
    options; the calls do not depend on any verdict, so a failing section
    never stops the evaluation of the later ones.  The exported function
    passes the override as it is, the class passes the merged options, the
    earlier revision the fixed baseline. *)
Theorem validateAll_evaluates_every_mapped_section
    (this : RequestValidator.t) (ss : IValidateAllSchema)
    (o : option Joi.ValidationOptions) (w : World) :
  let req := request w in
  let calls o' :=
    (callOf (schema_body ss) (body req) o' ++
     callOf (schema_cookies ss) (cookies req) o' ++
     callOf (schema_headers ss) (headers req) o' ++
     callOf (schema_params ss) (params req) o' ++
     callOf (schema_query ss) (query req) o')%list in
  engineCalls (run (ValidatorBase.validateAll ss o) w) =
    (engineCalls w ++ calls o)%list /\
  engineCalls (run (RequestValidator.validateAll this ss o) w) =
    (engineCalls w ++
     calls (Some (spread (RequestValidator.commonValidationOptions this) o)))
    %list /\
  engineCalls (run (ValidatorBaseFixedOptions.validateAll ss) w) =
    (engineCalls w ++
     calls (Some ValidatorBaseFixedOptions.commonValidatorOptions))%list.
Proof.
  intros req calls. subst req calls.
  change (ValidatorBase.validateAll ss o)
    with (exported (AggregateValidator ss o)).
  change (RequestValidator.validateAll this ss o)
    with (method this (AggregateValidator ss o)).
  rewrite exported_run, method_run. cbn [engineCalls].
  destruct ss as [[b|] [c|] [h|] [p|] [q|]]; repeat split;
    try reflexivity;
    unfold_steps; cbn; case_verdicts;
    rewrite ?app_nil_r, <- ?app_assoc; reflexivity.
Qed.

(** ** What a validator depends on *)

Lemma agree_payloadFor (v : Validator) (o : option Joi.ValidationOptions)
    (req1 req2 : Request) :
  (forall sec, is_Some (inScope v sec) ->
     sectionView sec req1 = sectionView sec req2) ->
  payloadFor v o req1 = payloadFor v o req2 /\
  callsFor v o req1 = callsFor v o req2.
Proof.
  intros H.
  assert (forall sec, finding v o req1 sec = finding v o req2 sec) as Hf.
  { intros sec. unfold finding, verdict. specialize (H sec).
    destruct (inScope v sec); [rewrite H by eauto |]; reflexivity. }
  split.
  - destruct v as [sec s o' | ss o']; cbn [payloadFor].
    + rewrite Hf. reflexivity.
    + apply map_ext. intros sec. rewrite Hf. reflexivity.
  - unfold callsFor. apply flat_map_ext. intros sec. specialize (H sec).
    destruct (inScope v sec); [rewrite H by eauto |]; reflexivity.
Qed.

(** X2. A validator inspects only the sections it holds a schema for:
    two requests that agree on those sections get the same answer and
    cause the same engine calls, whatever their other sections hold. *)
Theorem unmapped_sections_are_never_inspected (this : RequestValidator.t)
    (v : Validator) (req1 req2 : Request) :
  (forall sec, is_Some (inScope v sec) ->
     sectionView sec req1 = sectionView sec req2) ->
  nextCalls (run (exported v) (incoming req1)) =
    nextCalls (run (exported v) (incoming req2)) /\
  engineCalls (run (exported v) (incoming req1)) =
    engineCalls (run (exported v) (incoming req2)) /\
  nextCalls (run (method this v) (incoming req1)) =
    nextCalls (run (method this v) (incoming req2)) /\
  engineCalls (run (method this v) (incoming req1)) =
    engineCalls (run (method this v) (incoming req2)).
Proof.
  intros H. rewrite !exported_incoming, !method_incoming.
  cbn [nextCalls engineCalls]. unfold answerFor.
  destruct (agree_payloadFor v (optionsOfExported v) req1 req2 H)
    as [-> ->].
  destruct (agree_payloadFor v (optionsOfMethod this v) req1 req2 H)
    as [-> ->].
  repeat split.
Qed.

Lemma unmapped_sections_are_never_inspected_witness :
  let req1 :=
    {| body := JObj [("name", JStr "abc")]; cookies := JNull;
       headers := JObj []; params := JNum 1; query := JStr "x" |} in
  let req2 :=
    {| body := JObj [("name", JStr "abc")]; cookies := JObj [];
       headers := JNull; params := JNum 2; query := JUndefined |} in
  nextCalls (run (ValidatorBase.validateAll Sample.twoRequiredBody None)
               (incoming req1)) =
  nextCalls (run (ValidatorBase.validateAll Sample.twoRequiredBody None)
               (incoming req2)).
Proof.
  intros req1 req2.
  apply (unmapped_sections_are_never_inspected
           (RequestValidator.constructor None)
           (AggregateValidator Sample.twoRequiredBody None) req1 req2).
  intros sec [s Hs]. destruct sec; [reflexivity | | | |]; discriminate Hs.
Defined.

(** ** No state between requests *)

(** X3. A validator keeps no state between requests: run a second time
    on the world its first run left, it calls the continuation with the
    same argument again. *)
Theorem same_request_same_answer (this : RequestValidator.t)
    (v : Validator) (w : World) :
  (exists arg,
     nextCalls (run (exported v) w) = (nextCalls w ++ [arg])%list /\
     nextCalls (run (exported v) (run (exported v) w)) =
       (nextCalls w ++ [arg; arg])%list) /\
  (exists arg,
     nextCalls (run (method this v) w) = (nextCalls w ++ [arg])%list /\
     nextCalls (run (method this v) (run (method this v) w)) =
       (nextCalls w ++ [arg; arg])%list).
Proof.
  split.
  - exists (answerFor v (optionsOfExported v) (request w)).
    rewrite !exported_run. cbn [nextCalls request].
    rewrite <- app_assoc. split; reflexivity.
  - exists (answerFor v (optionsOfMethod this v) (request w)).
    rewrite !method_run. cbn [nextCalls request].
    rewrite <- app_assoc. split; reflexivity.
Qed.

(** ** Options: layers and edge cases *)

(** X4. In the class every engine call gets an options object, in which
    a field is the call-time override's when it sets it, else the
    constructor's when it sets it, else the default: [abortEarly] is
    [false] and every other field is unset. *)
Theorem class_options_precedence
    (ctorOptions : option Joi.ValidationOptions) (v : Validator)
    (req : Request) (call : EngineCall) :
  In call
    (engineCalls (run (method (RequestValidator.constructor ctorOptions) v)
                    (incoming req))) ->
  exists opts,
    ec_options call = Some opts /\
    forall k,
      opts !! k =
      match field (overrideOf v) k with
      | Some x => Some x
      | None =>
          match field ctorOptions k with
          | Some x => Some x
          | None =>
              if decide (k = "abortEarly") then Some (JBool false) else None
          end
      end.
Proof.
  rewrite method_incoming. cbn [engineCalls].
  intros ->%callsFor_options.
  exists (spread (RequestValidator.commonValidationOptions
                    (RequestValidator.constructor ctorOptions))
                 (overrideOf v)).
  split; [destruct v; reflexivity |].
  intros k. rewrite lookup_spread.
  assert (RequestValidator.commonValidationOptions
            (RequestValidator.constructor ctorOptions) !! k =
          match field ctorOptions k with
          | Some x => Some x
          | None =>
              if decide (k = "abortEarly") then Some (JBool false) else None
          end) as ->.
  { replace (RequestValidator.commonValidationOptions
               (RequestValidator.constructor ctorOptions))
      with (spread ValidatorBase.commonValidatorOptions ctorOptions)
      by (destruct ctorOptions; reflexivity).
    rewrite lookup_spread.
    unfold ValidatorBase.commonValidatorOptions.
    rewrite lookup_singleton.
    destruct ctorOptions as [c|]; cbn [field];
      [destruct (c !! k) |]; repeat case_decide; congruence. }
  destruct (overrideOf v) as [o|]; cbn [field]; [| reflexivity].
  destruct (o !! k); reflexivity.
Qed.

Lemma class_options_precedence_witness :
  exists opts : Joi.ValidationOptions,
    opts !! "abortEarly" = Some (JBool true) /\
    opts !! "allowUnknown" = Some (JBool true) /\
    opts !! "convert" = None.
Proof.
  destruct (class_options_precedence
              (Some {[ "allowUnknown" := JBool true ]})
              (SectionValidator Body Sample.twoRequired
                 (Some {[ "abortEarly" := JBool true ]}))
              Sample.emptyRequest
              {| ec_schema := Sample.twoRequired;
                 ec_value := Sample.emptyObject;
                 ec_options :=
                   Some ({[ "abortEarly" := JBool true ]} ∪
                         ({[ "allowUnknown" := JBool true ]} ∪
                          {[ "abortEarly" := JBool false ]})) |})
    as (opts & _ & H).
  - left. reflexivity.
  - exists opts. rewrite !H. repeat split.
Defined.

(** X5. Edge cases of the merger: an empty override object changes
    nothing, applying the same override twice is applying it once, the
    merged keys are the baseline's together with the override's, and a
    class instance built with the empty object is the instance built with
    no options. *)
Theorem spread_edge_cases (base : Joi.ValidationOptions)
    (override : option Joi.ValidationOptions) :
  spread base (Some ∅) = base /\
  spread (spread base override) override = spread base override /\
  dom (spread base override) = dom base ∪ keysOf override /\
  RequestValidator.constructor (Some ∅) = RequestValidator.constructor None.
Proof.
  split; [cbn [spread]; apply (left_id_L ∅ (∪)) |].
  split.
  { destruct override as [o|]; [| reflexivity]. cbn [spread].
    rewrite (assoc_L (∪)). rewrite (idemp_L (∪)). reflexivity. }
  split.
  { destruct override as [o|]; cbn [spread keysOf].
    - rewrite dom_union_L. apply (comm_L (∪)).
    - rewrite (right_id_L ∅ (∪)). reflexivity. }
  unfold RequestValidator.constructor. cbn [spread].
  rewrite (left_id_L ∅ (∪)). reflexivity.
Qed.

(** ** The three implementations against each other *)

(** X6. A section validator of a class instance built without options,
    or with the empty options object, acts on every world exactly as the
    exported section validator with the same schema and override. *)
Theorem class_without_options_is_the_exported_section_validator
    (sec : SectionName) (s : Joi.ObjectSchema)
    (o : option Joi.ValidationOptions) (w : World) :
  run (method (RequestValidator.constructor None) (SectionValidator sec s o))
      w =
  run (exported (SectionValidator sec s o)) w /\
  run (method (RequestValidator.constructor (Some ∅))
         (SectionValidator sec s o)) w =
  run (exported (SectionValidator sec s o)) w.
Proof.
  rewrite !method_run, exported_run. cbn [optionsOfMethod optionsOfExported].
  replace (RequestValidator.commonValidationOptions
             (RequestValidator.constructor (Some ∅)))
    with ValidatorBase.commonValidatorOptions.
  - split; reflexivity.
  - unfold RequestValidator.constructor. cbn [spread
      RequestValidator.commonValidationOptions].
    rewrite (left_id_L ∅ (∪)). reflexivity.
Qed.

(** X7. The class's [validateAll] acts on every world as the exported
    [validateAll] called with the override already merged over the
    instance's common options. *)
Theorem class_validateAll_is_exported_validateAll_on_merged_options
    (this : RequestValidator.t) (ss : IValidateAllSchema)
    (o : option Joi.ValidationOptions) (w : World) :
  run (RequestValidator.validateAll this ss o) w =
  run (ValidatorBase.validateAll ss
         (Some (spread (RequestValidator.commonValidationOptions this) o)))
      w.
Proof.
  change (RequestValidator.validateAll this ss o)
    with (method this (AggregateValidator ss o)).
  change (ValidatorBase.validateAll ss ?x)
    with (exported (AggregateValidator ss x)).
  rewrite method_run, exported_run. reflexivity.
Qed.

(** X8. The earlier revision is kept by the later code as follows: each
    of its section validators is the exported section validator called
    without override; its [validateAll] is the exported [validateAll]
    called with the baseline given explicitly, and is the [validateAll]
    of a class instance built and called without options. *)
Theorem earlier_revision_is_kept (sec : SectionName) (s : Joi.ObjectSchema)
    (ss : IValidateAllSchema) (w : World) :
  run (earlierSection sec s) w =
    run (exported (SectionValidator sec s None)) w /\
  run (ValidatorBaseFixedOptions.validateAll ss) w =
    run (ValidatorBase.validateAll ss
           (Some ValidatorBase.commonValidatorOptions)) w /\
  run (ValidatorBaseFixedOptions.validateAll ss) w =
    run (RequestValidator.validateAll (RequestValidator.constructor None)
           ss None) w.
Proof. destruct sec; repeat split. Qed.

Lemma spread_over_set_key (base m : Joi.ValidationOptions) :
  dom base ⊆ dom m -> spread base (Some m) = m.
Proof.
  intros H. cbn [spread]. apply map_eq. intros k.
  rewrite lookup_union. destruct (m !! k) as [x|] eqn:Hm.
  - destruct (base !! k); reflexivity.
  - apply not_elem_of_dom in Hm.
    assert (k ∉ dom base) as Hb by set_solver.
    apply not_elem_of_dom in Hb. rewrite Hb. reflexivity.
Qed.

(** X9. When the override itself sets [abortEarly], the exported
    [validateAll] and the [validateAll] of a class instance built without
    options act alike on every world. *)
Theorem explicit_abortEarly_aligns_validateAll (ss : IValidateAllSchema)
    (m : Joi.ValidationOptions) (w : World) :
  is_Some (m !! "abortEarly") ->
  run (ValidatorBase.validateAll ss (Some m)) w =
  run (RequestValidator.validateAll (RequestValidator.constructor None)
         ss (Some m)) w.
Proof.
  intros Hm.
  change (RequestValidator.validateAll ?t ss ?x)
    with (method t (AggregateValidator ss x)).
  change (ValidatorBase.validateAll ss ?x)
    with (exported (AggregateValidator ss x)).
  rewrite method_run, exported_run. cbn [optionsOfMethod optionsOfExported].
  rewrite spread_over_set_key; [reflexivity |].
  cbn [RequestValidator.constructor RequestValidator.commonValidationOptions].
  rewrite dom_singleton_L. apply elem_of_dom in Hm. set_solver.
Qed.

Lemma explicit_abortEarly_aligns_validateAll_witness :
  nextCalls
    (run (ValidatorBase.validateAll Sample.twoRequiredBody
            (Some {[ "abortEarly" := JBool false;
                     "allowUnknown" := JBool true ]}))
         (incoming Sample.emptyRequest)) =
  nextCalls
    (run (RequestValidator.validateAll (RequestValidator.constructor None)
            Sample.twoRequiredBody
            (Some {[ "abortEarly" := JBool false;
                     "allowUnknown" := JBool true ]}))
         (incoming Sample.emptyRequest)).
Proof.
  rewrite (explicit_abortEarly_aligns_validateAll Sample.twoRequiredBody
             {[ "abortEarly" := JBool false; "allowUnknown" := JBool true ]}
             (incoming Sample.emptyRequest)).
  - reflexivity.
  - vm_compute. eauto.
Defined.

(** ** The aggregate validator against the section validators *)

Lemma errorPassed_answer (v : Validator) (o : option Joi.ValidationOptions)
    (req : Request) (w : World) :
  nextCalls w = [answerFor v o req] ->
  errorPassed w <->
  exists sec s e, inScope v sec = Some s /\ verdict s sec req o = Some e.
Proof.
  intros Hw. rewrite <- answerFor_Some_iff. unfold errorPassed. rewrite Hw.
  split.
  - intros (err & [H | []]). eauto.
  - intros (err & H). exists err. left. congruence.
Qed.

(** X10. The aggregate validator rejects a request exactly when the
    section validator of some section mapped in its schema set, built with
    that section's schema and the same override, rejects it.  For the
    exported functions this holds when [validateAll] is given the merged
    options the section validators compute themselves. *)
Theorem aggregate_rejects_iff_a_section_validator_rejects
    (this : RequestValidator.t) (ss : IValidateAllSchema)
    (o : option Joi.ValidationOptions) (req : Request) :
  (errorPassed (run (RequestValidator.validateAll this ss o) (incoming req))
   <->
   exists sec s,
     schemaOf ss sec = Some s /\
     errorPassed (run (method this (SectionValidator sec s o))
                    (incoming req))) /\
  (errorPassed
     (run (ValidatorBase.validateAll ss
             (Some (spread ValidatorBase.commonValidatorOptions o)))
          (incoming req))
   <->
   exists sec s,
     schemaOf ss sec = Some s /\
     errorPassed (run (exported (SectionValidator sec s o)) (incoming req))).
Proof.
  assert (forall opts sec s,
            (exists sec' s' e,
               inScope (SectionValidator sec s o) sec' = Some s' /\
               verdict s' sec' req opts = Some e) <->
            exists e, verdict s sec req opts = Some e) as Hsec.
  { intros opts sec s. split.
    - intros (sec' & s' & e & Hs & He). cbn [inScope] in Hs.
      case_decide; [| discriminate]. injection Hs as <-. subst sec'. eauto.
    - intros (e & He). exists sec, s, e. cbn [inScope].
      rewrite decide_True by reflexivity. eauto. }
  split.
  - change (RequestValidator.validateAll this ss o)
      with (method this (AggregateValidator ss o)).
    rewrite (errorPassed_answer (AggregateValidator ss o)
               (optionsOfMethod this (AggregateValidator ss o)) req)
      by (rewrite method_incoming; reflexivity).
    cbn [inScope optionsOfMethod]. split.
    + intros (sec & s & e & Hs & He). exists sec, s. split; [exact Hs |].
      rewrite (errorPassed_answer (SectionValidator sec s o)
                 (optionsOfMethod this (SectionValidator sec s o)) req)
        by (rewrite method_incoming; reflexivity).
      apply Hsec. eauto.
    + intros (sec & s & Hs & H). exists sec, s.
      rewrite (errorPassed_answer (SectionValidator sec s o)
                 (optionsOfMethod this (SectionValidator sec s o)) req) in H
        by (rewrite method_incoming; reflexivity).
      apply Hsec in H as (e & He). eauto.
  - change (ValidatorBase.validateAll ss ?x)
      with (exported (AggregateValidator ss x)).
    rewrite (errorPassed_answer
               (AggregateValidator ss
                  (Some (spread ValidatorBase.commonValidatorOptions o)))
               (Some (spread ValidatorBase.commonValidatorOptions o)) req)
      by (rewrite exported_incoming; reflexivity).
    cbn [inScope]. split.
    + intros (sec & s & e & Hs & He). exists sec, s. split; [exact Hs |].
      rewrite (errorPassed_answer (SectionValidator sec s o)
                 (optionsOfExported (SectionValidator sec s o)) req)
        by (rewrite exported_incoming; reflexivity).
      apply Hsec. eauto.
    + intros (sec & s & Hs & H). exists sec, s.
      rewrite (errorPassed_answer (SectionValidator sec s o)
                 (optionsOfExported (SectionValidator sec s o)) req) in H
        by (rewrite exported_incoming; reflexivity).
      apply Hsec in H as (e & He). eauto.
Qed.

(** ** The collector *)

Lemma getAllValidationErrors_world (this : RequestValidator.t)
    (ss : IValidateAllSchema) (o : option Joi.ValidationOptions)
    (w : World) :
  let w1 := snd (ValidatorBase.getAllValidationErrors ss o w) in
  let w2 := snd (RequestValidator.getAllValidationErrors this ss o w) in
  (request w1 = request w /\ nextCalls w1 = nextCalls w) /\
  (request w2 = request w /\ nextCalls w2 = nextCalls w).
Proof.
  destruct ss as [[b|] [c|] [h|] [p|] [q|]]; unfold_steps; cbn;
    case_verdicts; repeat split.
Qed.

(** X11. [getAllValidationErrors] reads the request and never calls the
    continuation.  The object it returns is never empty of errors: some
    section with a schema failed and its key holds that error; and it
    returns [undefined] only when every section with a schema passed. *)
Theorem getAllValidationErrors_never_returns_an_empty_report
    (this : RequestValidator.t) (ss : IValidateAllSchema)
    (o : option Joi.ValidationOptions) (w : World) :
  let outcome r w' :=
    request w' = request w /\
    nextCalls w' = nextCalls w /\
    match r with
    | Some p =>
        exists sec s e,
          schemaOf ss sec = Some s /\
          verdict s sec (request w) o = Some e /\
          getProp (sectionKey sec) p = Some e
    | None =>
        forall sec s,
          schemaOf ss sec = Some s -> verdict s sec (request w) o = None
    end in
  outcome (fst (ValidatorBase.getAllValidationErrors ss o w))
          (snd (ValidatorBase.getAllValidationErrors ss o w)) /\
  outcome (fst (RequestValidator.getAllValidationErrors this ss o w))
          (snd (RequestValidator.getAllValidationErrors this ss o w)).
Proof.
  intros outcome.
  destruct (getAllValidationErrors_world this ss o w) as [[Hr1 Hn1] [Hr2 Hn2]].
  destruct (getAllValidationErrors_result this ss o w) as [-> ->].
  set (v := AggregateValidator ss o).
  assert (match (if existsb truthy (map snd (payloadFor v o (request w)))
                 then Some (payloadFor v o (request w)) else None) with
          | Some p =>
              exists sec s e,
                schemaOf ss sec = Some s /\
                verdict s sec (request w) o = Some e /\
                getProp (sectionKey sec) p = Some e
          | None =>
              forall sec s,
                schemaOf ss sec = Some s ->
                verdict s sec (request w) o = None
          end) as H.
  { destruct (existsb truthy (map snd (payloadFor v o (request w)))) eqn:E.
    - apply existsb_exists in E as (x & Hin & Hx).
      destruct x as [e|]; [| discriminate].
      apply listed_finding in Hin as (sec & Hsec).
      pose proof Hsec as Hsec'.
      apply finding_Some in Hsec as (s & Hs & Hv).
      exists sec, s, e. repeat split; [exact Hs | exact Hv |].
      rewrite getProp_payloadFor. exact Hsec'.
    - intros sec s Hs.
      destruct (verdict s sec (request w) o) as [e|] eqn:Hv; [| reflexivity].
      assert (existsb truthy (map snd (payloadFor v o (request w))) = true)
        as E'.
      { apply existsb_exists. exists (Some e). split; [| reflexivity].
        apply (finding_listed v o (request w) sec).
        apply finding_Some. eauto. }
      congruence. }
  unfold outcome. subst v. repeat split; assumption.
Qed.
